(** * Push notification console sample (cpp-console.cpp)

    A shallow embedding of the sample's control flow.  The program is glue
    around the platform's push notification service, so the embedding keeps
    the program text and replaces the platform by

    - an [Environment]: the answers the operating system gives during one
      run (is the activator supported, how was the process activated, how
      does the channel operation behave, what is the payload);
    - a trace of [Event]s: every platform call and every console action,
      in program order;
    - a small piece of platform state, the set of registered activators.

    The functions below follow [RequestChannelAsync], [RequestChannel],
    [SubscribeForegroundEventHandler] and [main] line by line. *)

From Stdlib Require Import ZArith List String Ascii Bool Lia.
From Stdlib.Strings Require Import Byte.
Import ListNotations.

Local Open Scope Z_scope.
Local Open Scope string_scope.

(** ** Platform types *)

Definition HRESULT := Z.

(** [winrt::Windows::Foundation::AsyncStatus]. *)
Inductive AsyncStatus := Started | Completed | Canceled | Error.

(** [PushNotificationChannelStatus]. *)
Inductive PushNotificationChannelStatus :=
| InProgress
| InProgressRetry
| CompletedSuccess
| CompletedFailure.

Definition PushNotificationChannelStatus_eqb
    (a b : PushNotificationChannelStatus) : bool :=
  match a, b with
  | InProgress, InProgress
  | InProgressRetry, InProgressRetry
  | CompletedSuccess, CompletedSuccess
  | CompletedFailure, CompletedFailure => true
  | _, _ => false
  end.

Definition AsyncStatus_eqb (a b : AsyncStatus) : bool :=
  match a, b with
  | Started, Started | Completed, Completed
  | Canceled, Canceled | Error, Error => true
  | _, _ => false
  end.

(** [PushNotificationRegistrationActivators] is a flags enumeration. *)
Module PushNotificationRegistrationActivators.
Definition Undefined : Z := 0.
Definition PushTrigger : Z := 1.
Definition ComActivator : Z := 2.
Definition ProtocolActivator : Z := 4.
End PushNotificationRegistrationActivators.
Import PushNotificationRegistrationActivators.

(** [ExtendedActivationKind], by its underlying value: the switch of [main]
    names two of its values and sends every other one to [default].  The
    numbers are those of the SDK's declaration; the proofs use only that
    they differ. *)
Module ExtendedActivationKind.
Definition Launch : Z := 0.
Definition Push : Z := 5000.
End ExtendedActivationKind.

(** A channel: its URI and its expiration time. *)
Record PushNotificationChannel := {
  Uri : string;
  ExpirationTime : Z
}.

(** [PushNotificationCreateChannelStatus], the argument of the progress
    handler. *)
Record PushNotificationCreateChannelStatus := {
  status : PushNotificationChannelStatus;
  extendedError : HRESULT;
  retryCount : Z
}.

(** [PushNotificationCreateChannelResult], the value of the awaited
    operation.  [Channel] is a reference and may be null. *)
Record PushNotificationCreateChannelResult := {
  Status : PushNotificationChannelStatus;
  Channel : option PushNotificationChannel;
  ExtendedError : HRESULT
}.

(** [PushNotificationReceivedEventArgs]: the raw payload and the [Handled]
    flag the handler may set. *)
Record PushNotificationReceivedEventArgs := {
  Payload : list byte;
  Handled : bool
}.

(** How the operation made by [CreateChannelAsync] has ended when the
    caller's wait returns. *)
Inductive OperationEnd :=
| OpCompleted (result : PushNotificationCreateChannelResult)
| OpPending
| OpFaulted (hr : HRESULT)
| OpCanceled.

(** The operation as the program sees it: the progress signals raised
    while the caller waits, then its end. *)
Record ChannelOperation := {
  signals : list PushNotificationCreateChannelStatus;
  ending : OperationEnd
}.

(** ** Events and platform state *)

Inductive Event :=
| IsActivatorSupported_call (activators : Z)
| RegisterActivator_call (activators : Z) (clsid : string)
| UnregisterActivator_call (activators : Z)
| GetActivatedEventArgs_call
| CreateChannelAsync_call (remoteId : string)
| cout (text : string)
| wcout (text : string)
| LOG_HR_MSG (hr : HRESULT) (msg : string) (args : list Z)
| wait_for_call (seconds : Z)
| Cancel_call
| GetResults_call
| PushReceived_subscribe (channel : PushNotificationChannel)
| GetDeferral_call
| Payload_call
| Handled_call (value : bool)
| Complete_call
| cin_ignore.

(** The activators registered with the operating system, as a flag set. *)
Record OS := { registered : Z }.

Record Environment := {
  env_supported : Z -> bool;
  env_kind : Z;
  env_payload : list byte;
  env_operation : ChannelOperation;
  env_format : string -> Z -> string
}.

(** ** The monad: platform state in, value, state and trace out *)

Definition M (A : Type) : Type := OS -> A * OS * list Event.

Definition ret {A} (a : A) : M A := fun s => (a, s, []).

Definition bind {A B} (m : M A) (f : A -> M B) : M B :=
  fun s =>
    let r := m s in
    let r' := f (fst (fst r)) (snd (fst r)) in
    (fst (fst r'), snd (fst r'), (snd r ++ snd r')%list).

Definition emit (e : Event) : M unit := fun s => (tt, s, [e]).

Definition value {A} (r : A * OS * list Event) : A := fst (fst r).
Definition final {A} (r : A * OS * list Event) : OS := snd (fst r).
Definition trace {A} (r : A * OS * list Event) : list Event := snd r.

Declare Scope monad_scope.
Delimit Scope monad_scope with monad.
Notation "x <- m ;; k" := (bind m (fun x => k))
  (at level 61, m at next level, right associativity) : monad_scope.
Notation "m ;; k" := (bind m (fun _ => k))
  (at level 61, right associativity) : monad_scope.
Local Open Scope monad_scope.

Fixpoint for_each {A} (h : A -> M unit) (l : list A) : M unit :=
  match l with
  | [] => ret tt
  | a :: l' => h a ;; for_each h l'
  end.

(** ** Console helpers *)

Definition nl : string := String "010"%char EmptyString.

(** [std::cout << text << std::endl] *)
Definition cout_endl (text : string) : M unit := emit (cout (text ++ nl)).
Definition wcout_endl (text : string) : M unit := emit (wcout (text ++ nl)).

(** [std::string::c_str] read as a C string stops at the first NUL. *)
Fixpoint c_str (s : string) : string :=
  match s with
  | EmptyString => EmptyString
  | String c r => if Ascii.eqb c Ascii.zero then EmptyString
                  else String c (c_str r)
  end.

(** ** The program *)

Definition remoteId : string := "00000000-0000-0000-0000-000000000000".

Definition formater_pattern : string :=
  "on {month.abbreviated} {day.integer(1)}, {year.full} at {hour.integer(1)}:{minute.integer(2)}:{second.integer(2)}".

(** The coroutine object: what remains to run after the first suspension,
    giving the status the task has when the wait returns and the value
    [GetResults] would give. *)
Record Task := {
  resume : M (AsyncStatus * option PushNotificationChannel)
}.

Section Program.

Variable env : Environment.

Definition IsActivatorSupported (activators : Z) : M bool :=
  emit (IsActivatorSupported_call activators) ;;
  ret (env_supported env activators).

(** The platform keeps a set of registered activators: registering adds
    the given flags, unregistering clears them. *)
Definition RegisterActivator (activators : Z) (clsid : string) : M unit :=
  fun s => (tt, {| registered := Z.lor (registered s) activators |},
            [RegisterActivator_call activators clsid]).

Definition UnregisterActivator (activators : Z) : M unit :=
  fun s => (tt, {| registered := Z.ldiff (registered s) activators |},
            [UnregisterActivator_call activators]).

Definition CreateChannelAsync (id : string) : M ChannelOperation :=
  emit (CreateChannelAsync_call id) ;;
  ret (env_operation env).

(** The lambda given to [channelOperation.Progress]. *)
Definition Progress_handler (args : PushNotificationCreateChannelStatus)
  : M unit :=
  if PushNotificationChannelStatus_eqb (status args) InProgress then
    cout_endl (nl ++ "WNS ChannelURI request is in progress.")
  else if PushNotificationChannelStatus_eqb (status args) InProgressRetry then
    emit (LOG_HR_MSG (extendedError args)
      "The WNS ChannelURI request is in back-off retry mode because of a retryable error! Expect delays in acquiring it. RetryCount = %d"
      [retryCount args])
  else ret tt.

(** The coroutine.  It runs to [co_await] when called and the rest runs
    while the caller waits.  A result that reports success but carries a
    null channel makes [channel.Uri()] fail; the task then ends in
    [Error]. *)
Definition RequestChannelAsync : M Task :=
  channelOperation <- CreateChannelAsync remoteId ;;
  ret {| resume :=
    for_each Progress_handler (signals channelOperation) ;;
    match ending channelOperation with
    | OpCompleted result =>
        if PushNotificationChannelStatus_eqb (Status result) CompletedSuccess
        then
          match Channel result with
          | Some channel =>
              cout_endl (nl ++ "WNS ChannelURI: " ++ Uri channel) ;;
              wcout_endl (nl ++ "The WNS ChannelURI will expire "
                ++ env_format env formater_pattern (ExpirationTime channel)) ;;
              ret (Completed, Some channel)
          | None => ret (Error, None)
          end
        else if PushNotificationChannelStatus_eqb (Status result)
                  CompletedFailure
        then
          emit (LOG_HR_MSG (ExtendedError result)
            "We hit a critical non-retryable error with the WNS ChannelURI request!"
            []) ;;
          ret (Completed, None)
        else
          emit (LOG_HR_MSG (ExtendedError result)
            "Some other failure occurred." []) ;;
          ret (Completed, None)
    | OpPending => ret (Started, None)
    | OpFaulted _ => ret (Error, None)
    | OpCanceled => ret (Canceled, None)
    end |}.

(** [task.wait_for]: the coroutine runs while the caller is blocked. *)
Definition wait_for (task : Task) (seconds : Z)
  : M (AsyncStatus * option PushNotificationChannel) :=
  emit (wait_for_call seconds) ;;
  resume task.

Definition RequestChannel : M (option PushNotificationChannel) :=
  task <- RequestChannelAsync ;;
  waited <- wait_for task 300 ;;
  if negb (AsyncStatus_eqb (fst waited) Completed) then
    emit Cancel_call ;;
    ret None
  else
    emit GetResults_call ;;
    ret (snd waited).

(** [args.Payload()] and [args.Handled(value)]. *)
Definition get_Payload (args : PushNotificationReceivedEventArgs)
  : M (list byte) :=
  emit Payload_call ;;
  ret (Payload args).

Definition put_Handled (args : PushNotificationReceivedEventArgs)
    (value : bool) : M PushNotificationReceivedEventArgs :=
  emit (Handled_call value) ;;
  ret {| Payload := Payload args; Handled := value |}.

(** The lambda given to [channel.PushReceived]; it returns the event
    arguments as it leaves them. *)
Definition PushReceived_handler (args : PushNotificationReceivedEventArgs)
  : M PushNotificationReceivedEventArgs :=
  payload <- get_Payload args ;;
  let payloadString := string_of_list_byte payload in
  cout_endl (nl ++ "Push notification content received from FOREGROUND: "
             ++ payloadString) ;;
  put_Handled args true.

Definition SubscribeForegroundEventHandler
    (channel : PushNotificationChannel) : M unit :=
  emit (PushReceived_subscribe channel).

Definition clsid : string := "ccd2ae3f-764f-4ae3-be45-9804761b28b2".

Definition GetActivatedEventArgs_Kind : M Z :=
  emit GetActivatedEventArgs_call ;;
  ret (env_kind env).

Definition main : M Z :=
  supported <- IsActivatorSupported (Z.lor PushTrigger ComActivator) ;;
  (if supported : bool
   then RegisterActivator (Z.lor PushTrigger ComActivator) clsid
   else ret tt) ;;
  kind <- GetActivatedEventArgs_Kind ;;
  (if (kind =? ExtendedActivationKind.Launch)%Z then
     channel <- RequestChannel ;;
     match channel with
     | Some c => SubscribeForegroundEventHandler c
     | None =>
         cout_endl (nl ++ "There was an error obtaining the WNS ChannelURI")
     end ;;
     cout_endl (nl ++ "Press 'Enter' at any time to exit App.") ;;
     emit cin_ignore
   else if (kind =? ExtendedActivationKind.Push)%Z then
     let pushArgs := {| Payload := env_payload env; Handled := false |} in
     emit GetDeferral_call ;;
     payload <- get_Payload pushArgs ;;
     let payloadString := string_of_list_byte payload in
     cout_endl (nl ++ "Push notification content received from BACKGROUND: "
                ++ c_str payloadString) ;;
     cout_endl (nl ++ "Press 'Enter' to exit the App.") ;;
     emit Complete_call ;;
     emit cin_ignore
   else
     cout_endl (nl ++ "Unexpected activation type") ;;
     cout_endl (nl ++ "Press 'Enter' to exit the App.") ;;
     emit cin_ignore) ;;
  supported <- IsActivatorSupported ComActivator ;;
  (if supported : bool
   then UnregisterActivator ComActivator
   else ret tt) ;;
  ret 0.

End Program.

(** ** Reading traces *)

Local Open Scope list_scope.

Definition count (p : Event -> bool) (t : list Event) : nat :=
  List.length (filter p t).

Definition never (p : Event -> bool) (t : list Event) : Prop :=
  forall e, In e t -> p e = false.

Definition is_Complete (e : Event) : bool :=
  match e with Complete_call => true | _ => false end.
Definition is_GetDeferral (e : Event) : bool :=
  match e with GetDeferral_call => true | _ => false end.
Definition is_Payload (e : Event) : bool :=
  match e with Payload_call => true | _ => false end.
Definition is_subscribe (e : Event) : bool :=
  match e with PushReceived_subscribe _ => true | _ => false end.
Definition is_CreateChannelAsync (e : Event) : bool :=
  match e with CreateChannelAsync_call _ => true | _ => false end.
Definition is_Cancel (e : Event) : bool :=
  match e with Cancel_call => true | _ => false end.
Definition is_GetResults (e : Event) : bool :=
  match e with GetResults_call => true | _ => false end.
Definition is_Register (e : Event) : bool :=
  match e with RegisterActivator_call _ _ => true | _ => false end.
Definition is_Unregister (e : Event) : bool :=
  match e with UnregisterActivator_call _ => true | _ => false end.
Definition is_LOG (e : Event) : bool :=
  match e with LOG_HR_MSG _ _ _ => true | _ => false end.
(** The calls that block the calling thread. *)
Definition is_blocking (e : Event) : bool :=
  match e with cin_ignore | wait_for_call _ => true | _ => false end.
(** Console output and log records. *)
Definition is_output (e : Event) : bool :=
  match e with cout _ | wcout _ | LOG_HR_MSG _ _ _ => true | _ => false end.

(** Sample environments. *)
Definition no_format : string -> Z -> string := fun _ _ => "".

Definition sample_channel : PushNotificationChannel :=
  {| Uri := "https://wns.example/channel"; ExpirationTime := 42 |}.

Definition push_env : Environment :=
  {| env_supported := fun _ => true;
     env_kind := ExtendedActivationKind.Push;
     env_payload := [x68; x69]%byte;
     env_operation := {| signals := []; ending := OpPending |};
     env_format := no_format |}.

Definition os0 : OS := {| registered := 0 |}.

(** ** Views of the trace

    The descriptions below say what each part of the program leaves in the
    trace; [RequestChannel_run] and [main_run] prove them equal to what the
    program does. *)

(** What the progress handler writes for one signal. *)
Definition Progress_output (args : PushNotificationCreateChannelStatus)
  : list Event :=
  trace (Progress_handler args os0).

(** The console line that shows the background payload. *)
Definition background_line (payload : list byte) : Event :=
  cout ((nl ++ "Push notification content received from BACKGROUND: "
         ++ c_str (string_of_list_byte payload)) ++ nl)%string.

(** An event that touches the payload: reading it or showing it. *)
Definition uses_payload (payload : list byte) (e : Event) : bool :=
  match e with
  | Payload_call => true
  | cout text =>
      String.eqb text
        ((nl ++ "Push notification content received from BACKGROUND: "
          ++ c_str (string_of_list_byte payload)) ++ nl)%string
  | _ => false
  end.

(** The registration before the switch and the unregistration after it,
    as they show in the trace; 3 is [PushTrigger | ComActivator]. *)
Definition registration_events (env : Environment) : list Event :=
  IsActivatorSupported_call 3 ::
  (if env_supported env 3 then [RegisterActivator_call 3 clsid] else []) ++
  [GetActivatedEventArgs_call].

Definition unregistration_events (env : Environment) : list Event :=
  IsActivatorSupported_call ComActivator ::
  (if env_supported env ComActivator
   then [UnregisterActivator_call ComActivator] else []).

(** The claim of a prompt exit, as stated: whenever the deferral has been
    released, nothing that follows blocks. *)
Definition exits_promptly_after_release (t : list Event) : Prop :=
  forall pre post, t = pre ++ Complete_call :: post -> never is_blocking post.

(** What the wait in [RequestChannel] returns: the task's status and the
    value [GetResults] would give. *)
Definition awaited (env : Environment) (s : OS)
  : AsyncStatus * option PushNotificationChannel :=
  value ((task <- RequestChannelAsync env ;; wait_for task 300) s).

(** What the coroutine writes once the operation has ended. *)
Definition completion_events (env : Environment) : list Event :=
  match ending (env_operation env) with
  | OpCompleted res =>
      if PushNotificationChannelStatus_eqb (Status res) CompletedSuccess then
        match Channel res with
        | Some channel =>
            [ cout ((nl ++ "WNS ChannelURI: " ++ Uri channel) ++ nl)%string;
              wcout ((nl ++ "The WNS ChannelURI will expire "
                      ++ env_format env formater_pattern
                           (ExpirationTime channel)) ++ nl)%string ]
        | None => []
        end
      else if PushNotificationChannelStatus_eqb (Status res) CompletedFailure
      then
        [ LOG_HR_MSG (ExtendedError res)
            "We hit a critical non-retryable error with the WNS ChannelURI request!"
            [] ]
      else [ LOG_HR_MSG (ExtendedError res) "Some other failure occurred." [] ]
  | _ => []
  end.

(** Everything the coroutine writes while the caller waits. *)
Definition negotiation_events (env : Environment) : list Event :=
  flat_map Progress_output (signals (env_operation env)) ++
  completion_events env.

(** The state the switch runs in, and the state [main] ends in. *)
Definition after_registration (env : Environment) (s : OS) : OS :=
  if env_supported env 3
  then {| registered := Z.lor (registered s) 3 |} else s.

Definition after_unregistration (env : Environment) (s : OS) : OS :=
  if env_supported env ComActivator
  then {| registered := Z.ldiff (registered s) ComActivator |} else s.

(** What the switch on the activation kind leaves in the trace. *)
Definition switch_events (env : Environment) (s : OS) : list Event :=
  if (env_kind env =? ExtendedActivationKind.Launch)%Z then
    trace (RequestChannel env s) ++
    match value (RequestChannel env s) with
    | Some c => [PushReceived_subscribe c]
    | None =>
        [cout ((nl ++ "There was an error obtaining the WNS ChannelURI")
               ++ nl)%string]
    end ++
    [cout ((nl ++ "Press 'Enter' at any time to exit App.") ++ nl)%string;
     cin_ignore]
  else if (env_kind env =? ExtendedActivationKind.Push)%Z then
    [GetDeferral_call; Payload_call; background_line (env_payload env);
     cout ((nl ++ "Press 'Enter' to exit the App.") ++ nl)%string;
     Complete_call; cin_ignore]
  else
    [cout ((nl ++ "Unexpected activation type") ++ nl)%string;
     cout ((nl ++ "Press 'Enter' to exit the App.") ++ nl)%string;
     cin_ignore].

(** Sample environments for the Launch path. *)
Definition launch_env (op : ChannelOperation) : Environment :=
  {| env_supported := fun _ => true;
     env_kind := ExtendedActivationKind.Launch;
     env_payload := [];
     env_operation := op;
     env_format := no_format |}.

Definition pending_op : ChannelOperation :=
  {| signals := [ {| status := InProgress; extendedError := 0;
                     retryCount := 0 |} ];
     ending := OpPending |}.

Definition faulted_op : ChannelOperation :=
  {| signals := []; ending := OpFaulted (-2147467259) |}.

Definition success_op (X : PushNotificationChannel) : ChannelOperation :=
  {| signals :=
       [ {| status := InProgress; extendedError := 0; retryCount := 0 |};
         {| status := InProgressRetry; extendedError := -2147023436;
            retryCount := 2 |} ];
     ending := OpCompleted {| Status := CompletedSuccess; Channel := Some X;
                              ExtendedError := 0 |} |}.

Definition failure_op : ChannelOperation :=
  {| signals := [];
     ending := OpCompleted {| Status := CompletedFailure; Channel := None;
                              ExtendedError := -2147467259 |} |}.

(** The message logged for a result that is not a success. *)
Definition failure_message (st : PushNotificationChannelStatus) : string :=
  if PushNotificationChannelStatus_eqb st CompletedFailure
  then "We hit a critical non-retryable error with the WNS ChannelURI request!"
  else "Some other failure occurred.".

(** The informational line of the progress handler, and its retry
    warning. *)
Definition is_in_progress_message (e : Event) : bool :=
  match e with
  | cout text =>
      String.eqb text
        ((nl ++ "WNS ChannelURI request is in progress.") ++ nl)%string
  | _ => false
  end.

Definition retry_warning (hr : HRESULT) (n : Z) : Event :=
  LOG_HR_MSG hr
    "The WNS ChannelURI request is in back-off retry mode because of a retryable error! Expect delays in acquiring it. RetryCount = %d"
    [n].

(** An activation by file association (kind 3). *)
Definition other_env : Environment :=
  {| env_supported := fun _ => true;
     env_kind := 3;
     env_payload := [];
     env_operation := pending_op;
     env_format := no_format |}.

Definition unexpected_line : Event :=
  cout ((nl ++ "Unexpected activation type") ++ nl)%string.

(** An unregistration of anything but [ComActivator] alone. *)
Definition is_Unregister_other (e : Event) : bool :=
  match e with
  | UnregisterActivator_call a => negb (a =? ComActivator)%Z
  | _ => false
  end.

(** The registered flags for the background trigger and for the in-process
    activator. *)
Definition has_PushTrigger (s : OS) : bool := Z.testbit (registered s) 0.
Definition has_ComActivator (s : OS) : bool := Z.testbit (registered s) 1.

(** ** Further views, for the properties beyond the claims *)

Definition is_cin_ignore (e : Event) : bool :=
  match e with cin_ignore => true | _ => false end.

Definition is_wait_for (e : Event) : bool :=
  match e with wait_for_call _ => true | _ => false end.

(** The line [main] writes when [RequestChannel] gave no channel. *)
Definition error_line : Event :=
  cout ((nl ++ "There was an error obtaining the WNS ChannelURI") ++ nl)%string.

Definition is_error_line (e : Event) : bool :=
  match e with
  | cout text =>
      String.eqb text
        ((nl ++ "There was an error obtaining the WNS ChannelURI") ++ nl)%string
  | _ => false
  end.

(** The number of progress signals with a given status. *)
Definition count_status (st : PushNotificationChannelStatus)
    (sigs : list PushNotificationCreateChannelStatus) : nat :=
  List.length
    (filter (fun a => PushNotificationChannelStatus_eqb (status a) st) sigs).

(** One log record for a result that is not a success, none otherwise. *)
Definition completion_logs (e : OperationEnd) : nat :=
  match e with
  | OpCompleted res =>
      if PushNotificationChannelStatus_eqb (Status res) CompletedSuccess
      then 0%nat else 1%nat
  | _ => 0%nat
  end.

(** A payload without a zero byte. *)
Definition no_NUL (payload : list byte) : bool :=
  forallb (fun b => negb (Byte.eqb b x00)) payload.

Definition nul_payload : list byte := [x68; x69; x00; x21]%byte.

Definition nul_env : Environment :=
  {| env_supported := fun _ => true;
     env_kind := ExtendedActivationKind.Push;
     env_payload := nul_payload;
     env_operation := {| signals := []; ending := OpPending |};
     env_format := no_format |}.

(** ** Trace lemmas *)

Lemma count_app p t1 t2 : count p (t1 ++ t2) = (count p t1 + count p t2)%nat.
Proof. unfold count. now rewrite filter_app, length_app. Qed.

Lemma count_cons p e t :
  count p (e :: t) = ((if p e then 1 else 0) + count p t)%nat.
Proof. unfold count. simpl. now destruct (p e). Qed.

Lemma never_nil p : never p [].
Proof. intros e []. Qed.

Lemma never_cons p e t : p e = false -> never p t -> never p (e :: t).
Proof. intros He Ht x [<- | Hx]; auto. Qed.

Lemma never_app p t1 t2 : never p t1 -> never p t2 -> never p (t1 ++ t2).
Proof.
  intros H1 H2 e He. apply in_app_or in He. destruct He; auto.
Qed.

Lemma never_count p t : never p t -> count p t = 0%nat.
Proof.
  unfold count. induction t as [|e t IH]; intros H; simpl; auto.
  rewrite (H e (or_introl eq_refl)). apply IH.
  intros x Hx. apply H. now right.
Qed.

(** *** The progress handler and the negotiation only write and log *)

Lemma Progress_handler_run args s :
  Progress_handler args s = (tt, s, Progress_output args).
Proof.
  unfold Progress_output, Progress_handler.
  destruct (status args); reflexivity.
Qed.

Lemma for_each_Progress_run sigs s :
  for_each Progress_handler sigs s = (tt, s, flat_map Progress_output sigs).
Proof.
  induction sigs as [|a sigs IH]; [reflexivity|].
  cbn [for_each flat_map]. unfold bind.
  rewrite Progress_handler_run. cbn [fst snd]. now rewrite IH.
Qed.

Lemma Progress_output_is_output sigs e :
  In e (flat_map Progress_output sigs) -> is_output e = true.
Proof.
  rewrite in_flat_map. intros [a [_ He]].
  unfold Progress_output, Progress_handler in He.
  destruct (status a); cbn in He; intuition (subst; reflexivity).
Qed.

Lemma never_Progress_output p sigs :
  (forall e, is_output e = true -> p e = false) ->
  never p (flat_map Progress_output sigs).
Proof.
  intros Hp e He. apply Hp. eapply Progress_output_is_output; eauto.
Qed.

Ltac not_output := intros [] ; simpl; congruence.

Ltac never_basic :=
  repeat first
    [ apply never_nil
    | apply never_cons; [reflexivity|]
    | apply never_Progress_output; not_output
    | apply never_app ].

(** ** The foreground handler *)

(** C7: for every event delivered to the foreground handler, the handler
    reads the payload, writes it to the console and then sets [Handled] to
    true; the arguments it leaves behind are marked handled and carry the
    same payload. *)
Theorem PushReceived_handler_marks_handled
    (args : PushNotificationReceivedEventArgs) (s : OS) :
  let r := PushReceived_handler args s in
  Handled (value r) = true /\
  Payload (value r) = Payload args /\
  final r = s /\
  trace r =
    [ Payload_call;
      cout ((nl ++ "Push notification content received from FOREGROUND: "
             ++ string_of_list_byte (Payload args)) ++ nl)%string;
      Handled_call true ].
Proof. repeat split. Qed.

(** ** The background (Push) path *)

Ltac run_main Hk :=
  unfold main, trace, value, final; cbn; rewrite Hk; cbn.

(** C1: in the Push path the deferral is taken before the payload is read,
    the payload is read and shown while the deferral is held, and the
    deferral is released once, after which the payload is not touched
    again. *)
Theorem Push_deferral_brackets_payload (env : Environment) (s : OS) :
  env_kind env = ExtendedActivationKind.Push ->
  exists pre mid post,
    trace (main env s) = pre ++ GetDeferral_call :: mid ++ Complete_call :: post /\
    never (uses_payload (env_payload env)) pre /\
    In Payload_call mid /\
    In (background_line (env_payload env)) mid /\
    never (uses_payload (env_payload env)) post /\
    count is_GetDeferral (trace (main env s)) = 1%nat /\
    count is_Complete (trace (main env s)) = 1%nat.
Proof.
  intros Hk.
  exists (registration_events env),
         [Payload_call; background_line (env_payload env);
          cout ((nl ++ "Press 'Enter' to exit the App.") ++ nl)%string],
         (cin_ignore :: unregistration_events env).
  unfold registration_events, unregistration_events.
  run_main Hk.
  destruct (env_supported env 3), (env_supported env ComActivator); cbn;
    (split; [reflexivity|]);
    (split; [never_basic|]);
    (split; [now left|]);
    (split; [now right; left|]);
    (split; [never_basic|]);
    split; reflexivity.
Qed.

Lemma Push_deferral_brackets_payload_witness :
  env_kind push_env = ExtendedActivationKind.Push /\
  exists pre mid post,
    trace (main push_env os0)
      = pre ++ GetDeferral_call :: mid ++ Complete_call :: post /\
    never (uses_payload (env_payload push_env)) pre /\
    In Payload_call mid /\
    In (background_line (env_payload push_env)) mid /\
    never (uses_payload (env_payload push_env)) post /\
    count is_GetDeferral (trace (main push_env os0)) = 1%nat /\
    count is_Complete (trace (main push_env os0)) = 1%nat.
Proof.
  split; [reflexivity|].
  apply (Push_deferral_brackets_payload push_env os0). reflexivity.
Defined.

(** C2 as stated fails: after [deferral.Complete()] the Push branch still
    blocks in [std::cin.ignore()]. *)
Lemma Push_blocks_after_release :
  ~ exits_promptly_after_release (trace (main push_env os0)).
Proof.
  intros H.
  specialize (H
    [ IsActivatorSupported_call 3; RegisterActivator_call 3 clsid;
      GetActivatedEventArgs_call; GetDeferral_call; Payload_call;
      background_line (env_payload push_env);
      cout ((nl ++ "Press 'Enter' to exit the App.") ++ nl)%string ]
    [ cin_ignore; IsActivatorSupported_call ComActivator;
      UnregisterActivator_call ComActivator ]
    eq_refl cin_ignore (or_introl eq_refl)).
  discriminate H.
Qed.

(** C2, amended: in the Push path the release of the deferral is followed
    at once by the one blocking call of the run, the console read that
    waits for Enter; nothing blocks before the release, and after the read
    only the unregistration remains. *)
Theorem Push_release_then_console_read (env : Environment) (s : OS) :
  env_kind env = ExtendedActivationKind.Push ->
  exists pre,
    trace (main env s)
      = pre ++ Complete_call :: cin_ignore :: unregistration_events env /\
    never is_blocking pre /\
    never is_Complete pre /\
    never is_blocking (unregistration_events env) /\
    count is_blocking (trace (main env s)) = 1%nat.
Proof.
  intros Hk.
  exists (registration_events env ++
          [GetDeferral_call; Payload_call;
           background_line (env_payload env);
           cout ((nl ++ "Press 'Enter' to exit the App.") ++ nl)%string]).
  unfold registration_events, unregistration_events.
  run_main Hk.
  destruct (env_supported env 3), (env_supported env ComActivator); cbn;
    (split; [reflexivity|]);
    (split; [never_basic|]);
    (split; [never_basic|]);
    (split; [never_basic|]);
    reflexivity.
Qed.

Lemma Push_release_then_console_read_witness :
  env_kind push_env = ExtendedActivationKind.Push /\
  exists pre,
    trace (main push_env os0)
      = pre ++ Complete_call :: cin_ignore :: unregistration_events push_env /\
    never is_blocking pre /\
    never is_Complete pre /\
    never is_blocking (unregistration_events push_env) /\
    count is_blocking (trace (main push_env os0)) = 1%nat.
Proof.
  split; [reflexivity|].
  apply (Push_release_then_console_read push_env os0). reflexivity.
Defined.

(** ** The negotiation *)

Lemma RequestChannel_run env s :
  RequestChannel env s =
    (if AsyncStatus_eqb (fst (awaited env s)) Completed
     then snd (awaited env s) else None,
     s,
     CreateChannelAsync_call remoteId :: wait_for_call 300 ::
     negotiation_events env ++
     [if AsyncStatus_eqb (fst (awaited env s)) Completed
      then GetResults_call else Cancel_call]).
Proof.
  unfold awaited, value, RequestChannel, RequestChannelAsync, wait_for,
    CreateChannelAsync, negotiation_events, completion_events, bind. cbn.
  rewrite !for_each_Progress_run. cbn.
  destruct (ending (env_operation env)) as [[st [c|] hr]| | |];
    try destruct st; reflexivity.
Qed.

Lemma negotiation_is_output env e :
  In e (negotiation_events env) -> is_output e = true.
Proof.
  unfold negotiation_events, completion_events. intros He.
  apply in_app_or in He. destruct He as [He|He];
    [eapply Progress_output_is_output; eauto|].
  destruct (ending (env_operation env)) as [[st [c|] hr]| | |];
    try destruct st; simpl in He; intuition (subst; reflexivity).
Qed.

Lemma never_negotiation p env :
  (forall e, is_output e = true -> p e = false) ->
  never p (negotiation_events env).
Proof. intros Hp e He. apply Hp. now apply negotiation_is_output in He. Qed.

Lemma RequestChannel_final env s : final (RequestChannel env s) = s.
Proof.
  now rewrite RequestChannel_run.
Qed.

Lemma run_eta {A} (r : A * OS * list Event) :
  r = (value r, final r, trace r).
Proof. now destruct r as [[a s] t]. Qed.

Lemma main_run env s :
  main env s =
    (0, after_unregistration env (after_registration env s),
     registration_events env ++
     switch_events env (after_registration env s) ++
     unregistration_events env).
Proof.
  rewrite (run_eta (main env s)).
  unfold main, registration_events, unregistration_events, switch_events,
    after_registration, after_unregistration, value, final, trace.
  cbn -[RequestChannel Z.eqb].
  destruct (env_kind env =? ExtendedActivationKind.Launch)%Z;
    [|destruct (env_kind env =? ExtendedActivationKind.Push)%Z];
    destruct (env_supported env 3), (env_supported env ComActivator);
    cbn -[RequestChannel]; try reflexivity.
  all: match goal with
       | |- context [RequestChannel ?e ?s1] =>
           pose proof (RequestChannel_final e s1) as Hf;
           destruct (RequestChannel e s1) as [[v s'] t];
           cbn in Hf |- *; subst s'; destruct v; cbn;
           rewrite <- ?app_assoc; reflexivity
       end.
Qed.

Lemma awaited_eq env s :
  awaited env s =
    match ending (env_operation env) with
    | OpCompleted res =>
        if PushNotificationChannelStatus_eqb (Status res) CompletedSuccess
        then match Channel res with
             | Some c => (Completed, Some c)
             | None => (Error, None)
             end
        else (Completed, None)
    | OpPending => (Started, None)
    | OpFaulted _ => (Error, None)
    | OpCanceled => (Canceled, None)
    end.
Proof.
  unfold awaited, value, RequestChannelAsync, wait_for, CreateChannelAsync.
  cbn.
  destruct (ending (env_operation env)) as [[st [c|] hr]| | |];
    try destruct st; reflexivity.
Qed.

Lemma never_of_output p out :
  (forall e, In e out -> is_output e = true) ->
  (forall e, is_output e = true -> p e = false) ->
  never p out.
Proof. intros Hout Hp e He. auto. Qed.

Lemma never_registration p env :
  (forall a, p (IsActivatorSupported_call a) = false) ->
  (forall a c, p (RegisterActivator_call a c) = false) ->
  p GetActivatedEventArgs_call = false ->
  never p (registration_events env).
Proof.
  intros H1 H2 H3. unfold registration_events.
  destruct (env_supported env 3); cbn;
    repeat (apply never_cons; [auto|]); apply never_nil.
Qed.

Lemma never_unregistration p env :
  (forall a, p (IsActivatorSupported_call a) = false) ->
  (forall a, p (UnregisterActivator_call a) = false) ->
  never p (unregistration_events env).
Proof.
  intros H1 H2. unfold unregistration_events.
  destruct (env_supported env ComActivator); cbn;
    repeat (apply never_cons; [auto|]); apply never_nil.
Qed.

Lemma count_frame p a b c :
  never p a -> never p c -> count p (a ++ b ++ c) = count p b.
Proof.
  intros Ha Hc.
  rewrite !count_app, (never_count _ _ Ha), (never_count _ _ Hc).
  simpl. now rewrite Nat.add_0_r.
Qed.

Ltac never_solve :=
  repeat first
    [ apply never_registration; intros; reflexivity
    | apply never_unregistration; intros; reflexivity
    | apply never_negotiation; not_output
    | apply never_app
    | apply never_nil
    | apply never_cons; [reflexivity|]
    | apply never_Progress_output; not_output
    | eapply never_of_output; [eassumption | not_output] ].

(** C10: whenever the wait returns anything but [Completed] (the task still
    running at the deadline, faulted, or cancelled) [RequestChannel] calls
    [Cancel] as its last step and returns null, and [GetResults] is not
    called. *)
Theorem RequestChannel_not_Completed (env : Environment) (s : OS) :
  fst (awaited env s) <> Completed ->
  value (RequestChannel env s) = None /\
  trace (RequestChannel env s) =
    CreateChannelAsync_call remoteId :: wait_for_call 300 ::
    negotiation_events env ++ [Cancel_call] /\
  never is_Cancel (negotiation_events env) /\
  count is_Cancel (trace (RequestChannel env s)) = 1%nat /\
  never is_GetResults (trace (RequestChannel env s)).
Proof.
  intros Hst. rewrite RequestChannel_run.
  destruct (fst (awaited env s)); try congruence; unfold value, trace;
    cbn [fst snd AsyncStatus_eqb].
  all: split; [reflexivity|]; split; [reflexivity|];
    split; [never_solve|]; split; [|never_solve].
  all: rewrite !count_cons, count_app, never_count by never_solve;
    reflexivity.
Qed.

Lemma RequestChannel_not_Completed_witness :
  fst (awaited (launch_env faulted_op) os0) <> Completed /\
  value (RequestChannel (launch_env faulted_op) os0) = None /\
  trace (RequestChannel (launch_env faulted_op) os0) =
    CreateChannelAsync_call remoteId :: wait_for_call 300 ::
    negotiation_events (launch_env faulted_op) ++ [Cancel_call] /\
  never is_Cancel (negotiation_events (launch_env faulted_op)) /\
  count is_Cancel (trace (RequestChannel (launch_env faulted_op) os0)) = 1%nat /\
  never is_GetResults (trace (RequestChannel (launch_env faulted_op) os0)).
Proof.
  assert (H : fst (awaited (launch_env faulted_op) os0) <> Completed)
    by (cbv; discriminate).
  split; [exact H|].
  apply (RequestChannel_not_Completed (launch_env faulted_op) os0 H).
Defined.

(** C3: when the channel operation is still pending as the 300-second wait
    returns, [RequestChannel] calls [Cancel] after the wait and returns
    null, and the run of [main] subscribes no foreground handler. *)
Theorem RequestChannel_timeout (env : Environment) (s : OS) :
  ending (env_operation env) = OpPending ->
  fst (awaited env s) = Started /\
  value (RequestChannel env s) = None /\
  trace (RequestChannel env s) =
    CreateChannelAsync_call remoteId :: wait_for_call 300 ::
    negotiation_events env ++ [Cancel_call] /\
  never is_Cancel (negotiation_events env) /\
  never is_GetResults (trace (RequestChannel env s)) /\
  never is_subscribe (trace (main env s)).
Proof.
  intros Hend.
  assert (Hw : forall s', awaited env s' = (Started, None))
    by (intros s'; now rewrite awaited_eq, Hend).
  split; [now rewrite Hw|].
  rewrite main_run. unfold switch_events.
  rewrite !RequestChannel_run, !Hw.
  unfold value, trace; cbn [fst snd AsyncStatus_eqb].
  repeat (split; [reflexivity || never_solve|]).
  destruct (env_kind env =? ExtendedActivationKind.Launch)%Z;
    [|destruct (env_kind env =? ExtendedActivationKind.Push)%Z];
    never_solve.
Qed.

Lemma RequestChannel_timeout_witness :
  ending (env_operation (launch_env pending_op)) = OpPending /\
  fst (awaited (launch_env pending_op) os0) = Started /\
  value (RequestChannel (launch_env pending_op) os0) = None /\
  trace (RequestChannel (launch_env pending_op) os0) =
    CreateChannelAsync_call remoteId :: wait_for_call 300 ::
    negotiation_events (launch_env pending_op) ++ [Cancel_call] /\
  never is_Cancel (negotiation_events (launch_env pending_op)) /\
  never is_GetResults (trace (RequestChannel (launch_env pending_op) os0)) /\
  never is_subscribe (trace (main (launch_env pending_op) os0)).
Proof.
  split; [reflexivity|].
  apply (RequestChannel_timeout (launch_env pending_op) os0). reflexivity.
Defined.

(** C4: in the Launch path, when the operation completes with
    [CompletedSuccess] and channel [X] before the wait returns,
    [RequestChannel] returns [X] and [main] subscribes the foreground
    handler on [X], right after [GetResults], and nowhere else. *)
Theorem Launch_success_subscribes_once
    (env : Environment) (s : OS)
    (res : PushNotificationCreateChannelResult)
    (X : PushNotificationChannel) :
  env_kind env = ExtendedActivationKind.Launch ->
  ending (env_operation env) = OpCompleted res ->
  Status res = CompletedSuccess ->
  Channel res = Some X ->
  value (RequestChannel env (after_registration env s)) = Some X /\
  (exists pre post,
     trace (main env s)
       = pre ++ GetResults_call :: PushReceived_subscribe X :: post /\
     never is_subscribe pre /\ never is_subscribe post) /\
  count is_subscribe (trace (main env s)) = 1%nat.
Proof.
  intros Hk Hend Hst Hch.
  assert (Hw : forall s', awaited env s' = (Completed, Some X))
    by (intros s'; now rewrite awaited_eq, Hend, Hst, Hch).
  rewrite main_run. unfold switch_events.
  rewrite Hk, Z.eqb_refl, !RequestChannel_run, !Hw.
  unfold value, trace; cbn [fst snd AsyncStatus_eqb].
  split; [reflexivity|]. split.
  - exists (registration_events env ++
            CreateChannelAsync_call remoteId :: wait_for_call 300 ::
            negotiation_events env),
           ([cout ((nl ++ "Press 'Enter' at any time to exit App.") ++ nl)%string;
             cin_ignore] ++ unregistration_events env).
    split; [|split; never_solve].
    rewrite <- !app_assoc. cbn [app]. rewrite <- !app_assoc. reflexivity.
  - rewrite count_frame by never_solve.
    rewrite !count_app, !count_cons, count_app, never_count by never_solve.
    reflexivity.
Qed.

Lemma Launch_success_subscribes_once_witness :
  env_kind (launch_env (success_op sample_channel))
    = ExtendedActivationKind.Launch /\
  value (RequestChannel (launch_env (success_op sample_channel))
           (after_registration (launch_env (success_op sample_channel)) os0))
    = Some sample_channel /\
  (exists pre post,
     trace (main (launch_env (success_op sample_channel)) os0)
       = pre ++ GetResults_call :: PushReceived_subscribe sample_channel
             :: post /\
     never is_subscribe pre /\ never is_subscribe post) /\
  count is_subscribe (trace (main (launch_env (success_op sample_channel)) os0))
    = 1%nat.
Proof.
  split; [reflexivity|].
  apply (Launch_success_subscribes_once
           (launch_env (success_op sample_channel)) os0
           {| Status := CompletedSuccess; Channel := Some sample_channel;
              ExtendedError := 0 |} sample_channel);
    reflexivity.
Defined.

(** C5: when the operation completes with [CompletedFailure] or with any
    other status than [CompletedSuccess], the coroutine logs the result's
    error and finishes with null, [RequestChannel] returns null, and the
    request is made once: once by [RequestChannel], and by [main] once in
    the Launch path and not at all in the others. *)
Theorem RequestChannel_failure_logged_no_retry
    (env : Environment) (s : OS)
    (res : PushNotificationCreateChannelResult) :
  ending (env_operation env) = OpCompleted res ->
  Status res <> CompletedSuccess ->
  awaited env s = (Completed, None) /\
  value (RequestChannel env s) = None /\
  trace (RequestChannel env s) =
    CreateChannelAsync_call remoteId :: wait_for_call 300 ::
    flat_map Progress_output (signals (env_operation env)) ++
    [ LOG_HR_MSG (ExtendedError res) (failure_message (Status res)) [];
      GetResults_call ] /\
  count is_CreateChannelAsync (trace (RequestChannel env s)) = 1%nat /\
  count is_CreateChannelAsync (trace (main env s)) =
    (if (env_kind env =? ExtendedActivationKind.Launch)%Z then 1 else 0)%nat.
Proof.
  intros Hend Hst.
  assert (Hw : forall s', awaited env s' = (Completed, None)).
  { intros s'. rewrite awaited_eq, Hend.
    destruct (Status res); congruence || reflexivity. }
  assert (Hc : forall s',
    count is_CreateChannelAsync (trace (RequestChannel env s')) = 1%nat).
  { intros s'. rewrite RequestChannel_run. unfold trace; cbn [snd].
    rewrite !count_cons, count_app, never_count by never_solve.
    rewrite Hw. reflexivity. }
  split; [apply Hw|].
  split; [now rewrite RequestChannel_run, Hw|].
  split.
  - rewrite RequestChannel_run, Hw.
    unfold trace, negotiation_events, completion_events, failure_message.
    rewrite Hend. cbn [fst snd AsyncStatus_eqb].
    rewrite <- app_assoc.
    destruct (Status res); congruence || reflexivity.
  - split; [apply Hc|].
    rewrite main_run. unfold trace at 1; cbn [snd].
    rewrite count_frame by never_solve.
    unfold switch_events.
    destruct (env_kind env =? ExtendedActivationKind.Launch)%Z.
    + rewrite count_app, Hc, never_count; [reflexivity|].
      destruct (value (RequestChannel env (after_registration env s)));
        never_solve.
    + destruct (env_kind env =? ExtendedActivationKind.Push)%Z;
        reflexivity.
Qed.

Lemma RequestChannel_failure_logged_no_retry_witness :
  ending (env_operation (launch_env failure_op))
    = OpCompleted {| Status := CompletedFailure; Channel := None;
                     ExtendedError := -2147467259 |} /\
  awaited (launch_env failure_op) os0 = (Completed, None) /\
  value (RequestChannel (launch_env failure_op) os0) = None /\
  trace (RequestChannel (launch_env failure_op) os0) =
    CreateChannelAsync_call remoteId :: wait_for_call 300 ::
    flat_map Progress_output (signals (env_operation (launch_env failure_op)))
    ++ [ LOG_HR_MSG (-2147467259) (failure_message CompletedFailure) [];
         GetResults_call ] /\
  count is_CreateChannelAsync
    (trace (RequestChannel (launch_env failure_op) os0)) = 1%nat /\
  count is_CreateChannelAsync (trace (main (launch_env failure_op) os0)) =
    1%nat.
Proof.
  split; [reflexivity|].
  apply (RequestChannel_failure_logged_no_retry (launch_env failure_op) os0
           {| Status := CompletedFailure; Channel := None;
              ExtendedError := -2147467259 |});
    [reflexivity | discriminate].
Defined.

(** C8: for the progress sequence InProgress, InProgressRetry with retry
    count 2, then CompletedSuccess with channel [X], the negotiation writes
    the in-progress line once, logs one retry warning, with count 2, and
    returns [X]. *)
Theorem negotiation_progress_retry_success
    (env : Environment) (s : OS) (e1 c1 e2 hr : Z)
    (X : PushNotificationChannel) :
  env_operation env =
    {| signals :=
         [ {| status := InProgress; extendedError := e1; retryCount := c1 |};
           {| status := InProgressRetry; extendedError := e2;
              retryCount := 2 |} ];
       ending := OpCompleted {| Status := CompletedSuccess;
                                Channel := Some X; ExtendedError := hr |} |} ->
  value (RequestChannel env s) = Some X /\
  trace (RequestChannel env s) =
    [ CreateChannelAsync_call remoteId;
      wait_for_call 300;
      cout ((nl ++ "WNS ChannelURI request is in progress.") ++ nl)%string;
      retry_warning e2 2;
      cout ((nl ++ "WNS ChannelURI: " ++ Uri X) ++ nl)%string;
      wcout ((nl ++ "The WNS ChannelURI will expire "
              ++ env_format env formater_pattern (ExpirationTime X))
             ++ nl)%string;
      GetResults_call ] /\
  count is_in_progress_message (trace (RequestChannel env s)) = 1%nat /\
  count is_LOG (trace (RequestChannel env s)) = 1%nat.
Proof.
  intros Hop.
  assert (Ht : trace (RequestChannel env s) =
    [ CreateChannelAsync_call remoteId;
      wait_for_call 300;
      cout ((nl ++ "WNS ChannelURI request is in progress.") ++ nl)%string;
      retry_warning e2 2;
      cout ((nl ++ "WNS ChannelURI: " ++ Uri X) ++ nl)%string;
      wcout ((nl ++ "The WNS ChannelURI will expire "
              ++ env_format env formater_pattern (ExpirationTime X))
             ++ nl)%string;
      GetResults_call ]).
  { rewrite RequestChannel_run, awaited_eq.
    unfold trace, negotiation_events, completion_events.
    rewrite Hop. reflexivity. }
  split; [rewrite RequestChannel_run, awaited_eq, Hop; reflexivity|].
  split; [exact Ht|].
  rewrite Ht. split; reflexivity.
Qed.

Lemma negotiation_progress_retry_success_witness :
  env_operation (launch_env (success_op sample_channel))
    = success_op sample_channel /\
  value (RequestChannel (launch_env (success_op sample_channel)) os0)
    = Some sample_channel /\
  trace (RequestChannel (launch_env (success_op sample_channel)) os0) =
    [ CreateChannelAsync_call remoteId;
      wait_for_call 300;
      cout ((nl ++ "WNS ChannelURI request is in progress.") ++ nl)%string;
      retry_warning (-2147023436) 2;
      cout ((nl ++ "WNS ChannelURI: " ++ Uri sample_channel) ++ nl)%string;
      wcout ((nl ++ "The WNS ChannelURI will expire "
              ++ no_format formater_pattern (ExpirationTime sample_channel))
             ++ nl)%string;
      GetResults_call ] /\
  count is_in_progress_message
    (trace (RequestChannel (launch_env (success_op sample_channel)) os0))
    = 1%nat /\
  count is_LOG
    (trace (RequestChannel (launch_env (success_op sample_channel)) os0))
    = 1%nat.
Proof.
  split; [reflexivity|].
  apply (negotiation_progress_retry_success
           (launch_env (success_op sample_channel)) os0
           0 0 (-2147023436) 0 sample_channel).
  reflexivity.
Defined.

(** ** The default branch and the activator registration *)

(** C6: for every activation kind other than Launch and Push, [main]
    writes the unexpected-activation line, waits for Enter and returns 0;
    no channel is requested. *)
Theorem unexpected_activation_no_negotiation (env : Environment) (s : OS) :
  env_kind env <> ExtendedActivationKind.Launch ->
  env_kind env <> ExtendedActivationKind.Push ->
  trace (main env s) =
    registration_events env ++
    [ unexpected_line;
      cout ((nl ++ "Press 'Enter' to exit the App.") ++ nl)%string;
      cin_ignore ] ++
    unregistration_events env /\
  In unexpected_line (trace (main env s)) /\
  never is_CreateChannelAsync (trace (main env s)) /\
  value (main env s) = 0.
Proof.
  intros Hl Hp. apply Z.eqb_neq in Hl, Hp.
  rewrite main_run. unfold trace, value, switch_events; cbn [fst snd].
  rewrite Hl, Hp.
  split; [reflexivity|]. split; [|split; [never_solve|reflexivity]].
  apply in_or_app. right. now left.
Qed.

Lemma unexpected_activation_no_negotiation_witness :
  env_kind other_env <> ExtendedActivationKind.Launch /\
  env_kind other_env <> ExtendedActivationKind.Push /\
  trace (main other_env os0) =
    registration_events other_env ++
    [ unexpected_line;
      cout ((nl ++ "Press 'Enter' to exit the App.") ++ nl)%string;
      cin_ignore ] ++
    unregistration_events other_env /\
  In unexpected_line (trace (main other_env os0)) /\
  never is_CreateChannelAsync (trace (main other_env os0)) /\
  value (main other_env os0) = 0.
Proof.
  assert (Hl : env_kind other_env <> ExtendedActivationKind.Launch)
    by (cbv; discriminate).
  assert (Hp : env_kind other_env <> ExtendedActivationKind.Push)
    by (cbv; discriminate).
  split; [exact Hl|]. split; [exact Hp|].
  apply (unexpected_activation_no_negotiation other_env os0 Hl Hp).
Defined.

Lemma never_switch_events p env s :
  (forall e, is_output e = true -> p e = false) ->
  p (CreateChannelAsync_call remoteId) = false ->
  p (wait_for_call 300) = false ->
  p GetResults_call = false -> p Cancel_call = false ->
  (forall c, p (PushReceived_subscribe c) = false) ->
  p GetDeferral_call = false -> p Payload_call = false ->
  p Complete_call = false -> p cin_ignore = false ->
  never p (switch_events env s).
Proof.
  intros Hout H1 H2 H3 H4 H5 H6 H7 H8 H9. unfold switch_events.
  destruct (env_kind env =? ExtendedActivationKind.Launch)%Z;
    [|destruct (env_kind env =? ExtendedActivationKind.Push)%Z].
  - rewrite RequestChannel_run. unfold trace, value; cbn [fst snd].
    repeat apply never_app.
    + repeat (apply never_cons; [assumption|]).
      apply never_app; [now apply never_negotiation|].
      apply never_cons; [|apply never_nil].
      now destruct (AsyncStatus_eqb _ _).
    + destruct (if AsyncStatus_eqb _ _ then _ else _);
        (apply never_cons; [auto|apply never_nil]).
    + repeat (apply never_cons; [auto|]). apply never_nil.
  - repeat (apply never_cons; [auto|]). apply never_nil.
  - repeat (apply never_cons; [auto|]). apply never_nil.
Qed.

(** C9: on every path [main] ends with the unregistration step, which is
    the only place an activator is unregistered and which names
    [ComActivator] alone; the PushTrigger registration is as the
    registration step left it; each step is skipped, with nothing written
    or logged and exit value 0, when the platform reports its activators
    unsupported. *)
Theorem unregisters_only_ComActivator (env : Environment) (s : OS) :
  trace (main env s) =
    registration_events env ++
    switch_events env (after_registration env s) ++
    unregistration_events env /\
  never is_Unregister
    (registration_events env ++ switch_events env (after_registration env s)) /\
  never is_Unregister_other (trace (main env s)) /\
  count is_Unregister (trace (main env s)) =
    (if env_supported env ComActivator then 1 else 0)%nat /\
  count is_Register (trace (main env s)) =
    (if env_supported env (Z.lor PushTrigger ComActivator) then 1 else 0)%nat /\
  count is_output (registration_events env ++ unregistration_events env)
    = 0%nat /\
  final (main env s) = after_unregistration env (after_registration env s) /\
  has_PushTrigger (final (main env s)) =
    has_PushTrigger (after_registration env s) /\
  has_PushTrigger (after_registration env s) =
    (env_supported env (Z.lor PushTrigger ComActivator) || has_PushTrigger s) /\
  has_ComActivator (final (main env s)) =
    (negb (env_supported env ComActivator) &&
     has_ComActivator (after_registration env s)) /\
  value (main env s) = 0.
Proof.
  assert (Hsw : forall p,
    (forall e, is_output e = true -> p e = false) ->
    p (CreateChannelAsync_call remoteId) = false ->
    p (wait_for_call 300) = false ->
    p GetResults_call = false -> p Cancel_call = false ->
    (forall c, p (PushReceived_subscribe c) = false) ->
    p GetDeferral_call = false -> p Payload_call = false ->
    p Complete_call = false -> p cin_ignore = false ->
    never p (switch_events env (after_registration env s)))
    by (intros; now apply never_switch_events).
  rewrite main_run. unfold trace, final, value; cbn [fst snd].
  split; [reflexivity|].
  split; [apply never_app; [never_solve|apply Hsw; try reflexivity; not_output]|].
  split.
  { repeat apply never_app;
      [never_solve | apply Hsw; try reflexivity; not_output |].
    unfold unregistration_events.
    destruct (env_supported env ComActivator); never_solve. }
  split.
  { rewrite !count_app, (never_count is_Unregister (registration_events env)),
      (never_count is_Unregister (switch_events _ _)).
    - unfold unregistration_events.
      destruct (env_supported env ComActivator); reflexivity.
    - apply Hsw; try reflexivity; not_output.
    - never_solve. }
  split.
  { rewrite !count_app, (never_count is_Register (unregistration_events env)),
      (never_count is_Register (switch_events _ _)).
    - unfold registration_events. change (Z.lor PushTrigger ComActivator) with 3.
      destruct (env_supported env 3); reflexivity.
    - apply Hsw; try reflexivity; not_output.
    - never_solve. }
  split.
  { unfold registration_events, unregistration_events.
    destruct (env_supported env 3), (env_supported env ComActivator);
      reflexivity. }
  split; [reflexivity|].
  unfold has_PushTrigger, has_ComActivator, after_unregistration,
    after_registration.
  change (Z.lor PushTrigger ComActivator) with 3.
  destruct (env_supported env 3), (env_supported env ComActivator);
    cbn [registered negb andb orb];
    rewrite ?Z.ldiff_spec, ?Z.lor_spec by lia;
    repeat split; try reflexivity;
    destruct (Z.testbit (registered s) 0), (Z.testbit (registered s) 1);
    reflexivity.
Qed.


(** ** Beyond the claims *)

Lemma never_RequestChannel p env s :
  (forall e, is_output e = true -> p e = false) ->
  p (CreateChannelAsync_call remoteId) = false ->
  p (wait_for_call 300) = false ->
  p GetResults_call = false -> p Cancel_call = false ->
  never p (trace (RequestChannel env s)).
Proof.
  intros Hout H1 H2 H3 H4. rewrite RequestChannel_run.
  unfold trace; cbn [snd].
  repeat (apply never_cons; [assumption|]).
  apply never_app; [now apply never_negotiation|].
  apply never_cons; [|apply never_nil].
  now destruct (AsyncStatus_eqb _ _).
Qed.

Lemma never_error_line_Progress sigs :
  never is_error_line (flat_map Progress_output sigs).
Proof.
  intros e He. apply in_flat_map in He. destruct He as [a [_ He]].
  unfold Progress_output, Progress_handler in He.
  destruct (status a); cbn in He; intuition (subst; reflexivity).
Qed.

Lemma never_error_line_negotiation env :
  never is_error_line (negotiation_events env).
Proof.
  unfold negotiation_events, completion_events.
  apply never_app; [apply never_error_line_Progress|].
  destruct (ending (env_operation env)) as [[st [c|] hr]| | |];
    try destruct st; cbn [PushNotificationChannelStatus_eqb Status Channel];
    repeat (apply never_cons; [reflexivity|]); apply never_nil.
Qed.

Lemma never_error_line_RequestChannel env s :
  never is_error_line (trace (RequestChannel env s)).
Proof.
  rewrite RequestChannel_run. unfold trace; cbn [snd].
  repeat (apply never_cons; [reflexivity|]).
  apply never_app; [apply never_error_line_negotiation|].
  apply never_cons; [|apply never_nil].
  now destruct (AsyncStatus_eqb _ _).
Qed.

(** X1: in the Launch path [main] subscribes the foreground handler once
    when [RequestChannel] gave a channel, and on that channel; when it gave
    null, [main] subscribes nothing and writes the error line once.  The
    error line is written in no other case. *)
Theorem Launch_subscribes_or_reports (env : Environment) (s : OS) :
  env_kind env = ExtendedActivationKind.Launch ->
  count is_subscribe (trace (main env s)) =
    match value (RequestChannel env (after_registration env s)) with
    | Some _ => 1%nat
    | None => 0%nat
    end /\
  count is_error_line (trace (main env s)) =
    match value (RequestChannel env (after_registration env s)) with
    | Some _ => 0%nat
    | None => 1%nat
    end /\
  forall c, In (PushReceived_subscribe c) (trace (main env s)) ->
            value (RequestChannel env (after_registration env s)) = Some c.
Proof.
  intros Hk. rewrite main_run. unfold trace at 1 2 3; cbn [snd].
  unfold switch_events. rewrite Hk, Z.eqb_refl.
  set (s1 := after_registration env s).
  assert (Hs : never is_subscribe (trace (RequestChannel env s1)))
    by (apply never_RequestChannel; try reflexivity; not_output).
  pose proof (never_error_line_RequestChannel env s1) as He.
  split; [|split].
  - rewrite count_frame by never_solve.
    rewrite count_app, (never_count _ _ Hs).
    destruct (value (RequestChannel env s1)); reflexivity.
  - rewrite count_frame by never_solve.
    rewrite count_app, (never_count _ _ He).
    destruct (value (RequestChannel env s1)); reflexivity.
  - intros c Hc.
    apply in_app_or in Hc. destruct Hc as [Hc|Hc].
    { assert (Hn : never is_subscribe (registration_events env))
        by never_solve.
      apply Hn in Hc. discriminate. }
    apply in_app_or in Hc. destruct Hc as [Hc|Hc].
    2:{ assert (Hn : never is_subscribe (unregistration_events env))
          by never_solve.
        apply Hn in Hc. discriminate. }
    apply in_app_or in Hc. destruct Hc as [Hc|Hc].
    { apply Hs in Hc. discriminate. }
    destruct (value (RequestChannel env s1)) as [c'|]; cbn in Hc;
      intuition congruence.
Qed.

Lemma Launch_subscribes_or_reports_witness :
  env_kind (launch_env pending_op) = ExtendedActivationKind.Launch /\
  count is_subscribe (trace (main (launch_env pending_op) os0)) =
    match value (RequestChannel (launch_env pending_op)
                   (after_registration (launch_env pending_op) os0)) with
    | Some _ => 1%nat
    | None => 0%nat
    end /\
  count is_error_line (trace (main (launch_env pending_op) os0)) =
    match value (RequestChannel (launch_env pending_op)
                   (after_registration (launch_env pending_op) os0)) with
    | Some _ => 0%nat
    | None => 1%nat
    end /\
  forall c,
    In (PushReceived_subscribe c) (trace (main (launch_env pending_op) os0)) ->
    value (RequestChannel (launch_env pending_op)
             (after_registration (launch_env pending_op) os0)) = Some c.
Proof.
  split; [reflexivity|].
  apply (Launch_subscribes_or_reports (launch_env pending_op) os0).
  reflexivity.
Defined.

(** *** The background line and zero bytes *)

Lemma ascii_of_byte_zero b :
  Ascii.eqb (ascii_of_byte b) Ascii.zero = negb (negb (Byte.eqb b x00)).
Proof. destruct b; reflexivity. Qed.

Lemma c_str_no_NUL payload :
  no_NUL payload = true ->
  c_str (string_of_list_byte payload) = string_of_list_byte payload.
Proof.
  unfold string_of_list_byte.
  induction payload as [|b payload IH]; intros H; [reflexivity|].
  cbn [no_NUL forallb] in H. apply andb_true_iff in H. destruct H as [Hb H].
  cbn [map string_of_list_ascii c_str].
  rewrite ascii_of_byte_zero, Hb. cbn [negb]. now rewrite IH.
Qed.

Lemma c_str_NUL p q :
  no_NUL p = true ->
  c_str (string_of_list_byte (p ++ x00 :: q)) = string_of_list_byte p.
Proof.
  unfold string_of_list_byte.
  induction p as [|b p IH]; intros H; [reflexivity|].
  cbn [no_NUL forallb] in H. apply andb_true_iff in H. destruct H as [Hb H].
  cbn [app map string_of_list_ascii c_str].
  rewrite ascii_of_byte_zero, Hb. cbn [negb]. now rewrite IH.
Qed.

(** X2: in the Push path a payload without a zero byte is shown whole: the
    background line carries the same text the foreground handler writes for
    that payload. *)
Theorem Push_shows_whole_payload (env : Environment) (s : OS) :
  env_kind env = ExtendedActivationKind.Push ->
  no_NUL (env_payload env) = true ->
  In (cout ((nl ++ "Push notification content received from BACKGROUND: "
             ++ string_of_list_byte (env_payload env)) ++ nl)%string)
     (trace (main env s)).
Proof.
  intros Hk Hn. rewrite main_run. unfold trace, switch_events; cbn [snd].
  rewrite Hk. cbn [Z.eqb ExtendedActivationKind.Push
                   ExtendedActivationKind.Launch].
  apply in_or_app. right. apply in_or_app. left.
  right. right. left. unfold background_line. now rewrite c_str_no_NUL.
Qed.

Lemma Push_shows_whole_payload_witness :
  env_kind push_env = ExtendedActivationKind.Push /\
  no_NUL (env_payload push_env) = true /\
  In (cout ((nl ++ "Push notification content received from BACKGROUND: "
             ++ string_of_list_byte (env_payload push_env)) ++ nl)%string)
     (trace (main push_env os0)).
Proof.
  split; [reflexivity|]. split; [reflexivity|].
  apply (Push_shows_whole_payload push_env os0); reflexivity.
Defined.

(** X3: in the Push path a payload with a zero byte is shown only up to its
    first zero byte, because the line is written from [c_str()]; the bytes
    after it do not reach the console. *)
Theorem Push_truncates_at_NUL
    (env : Environment) (s : OS) (p q : list byte) :
  env_kind env = ExtendedActivationKind.Push ->
  env_payload env = p ++ x00 :: q ->
  no_NUL p = true ->
  In (cout ((nl ++ "Push notification content received from BACKGROUND: "
             ++ string_of_list_byte p) ++ nl)%string)
     (trace (main env s)) /\
  count is_output (trace (main env s)) = 2%nat.
Proof.
  intros Hk Hp Hn. rewrite main_run. unfold trace, switch_events; cbn [snd].
  rewrite Hk. cbn [Z.eqb ExtendedActivationKind.Push
                   ExtendedActivationKind.Launch].
  split.
  - apply in_or_app. right. apply in_or_app. left.
    right. right. left. unfold background_line. now rewrite Hp, c_str_NUL.
  - rewrite count_frame; [reflexivity| |].
    + apply never_registration; intros; reflexivity.
    + apply never_unregistration; intros; reflexivity.
Qed.

Lemma Push_truncates_at_NUL_witness :
  env_kind nul_env = ExtendedActivationKind.Push /\
  env_payload nul_env = [x68; x69]%byte ++ x00 :: [x21]%byte /\
  no_NUL [x68; x69]%byte = true /\
  In (cout ((nl ++ "Push notification content received from BACKGROUND: "
             ++ string_of_list_byte [x68; x69]%byte) ++ nl)%string)
     (trace (main nul_env os0)) /\
  count is_output (trace (main nul_env os0)) = 2%nat.
Proof.
  split; [reflexivity|]. split; [reflexivity|]. split; [reflexivity|].
  apply (Push_truncates_at_NUL nul_env os0 [x68; x69]%byte [x21]%byte);
    reflexivity.
Defined.

(** *** Progress signals *)

Lemma Progress_output_counts sigs :
  count is_in_progress_message (flat_map Progress_output sigs)
    = count_status InProgress sigs /\
  count is_LOG (flat_map Progress_output sigs)
    = count_status InProgressRetry sigs /\
  count is_output (flat_map Progress_output sigs)
    = (count_status InProgress sigs + count_status InProgressRetry sigs)%nat.
Proof.
  unfold count_status.
  induction sigs as [|a sigs [IH1 [IH2 IH3]]]; [repeat split; reflexivity|].
  cbn [flat_map filter]. rewrite !count_app, IH1, IH2, IH3.
  unfold Progress_output, Progress_handler.
  destruct (status a); repeat split; cbn; lia.
Qed.

Lemma completion_events_counts env :
  count is_in_progress_message (completion_events env) = 0%nat /\
  count is_LOG (completion_events env)
    = completion_logs (ending (env_operation env)).
Proof.
  unfold completion_events, completion_logs.
  destruct (ending (env_operation env)) as [[st [c|] hr]| | |];
    try destruct st; split; reflexivity.
Qed.

(** X4: whatever signals the operation raises, the negotiation writes the
    in-progress line once for each InProgress signal and logs once for
    each InProgressRetry signal, plus once more when the operation
    completes with a result that is not a success; signals with any other
    status leave nothing. *)
Theorem negotiation_counts_signals (env : Environment) (s : OS) :
  count is_in_progress_message (trace (RequestChannel env s))
    = count_status InProgress (signals (env_operation env)) /\
  count is_LOG (trace (RequestChannel env s))
    = (count_status InProgressRetry (signals (env_operation env))
       + completion_logs (ending (env_operation env)))%nat /\
  count is_output (flat_map Progress_output (signals (env_operation env)))
    = (count_status InProgress (signals (env_operation env))
       + count_status InProgressRetry (signals (env_operation env)))%nat.
Proof.
  destruct (Progress_output_counts (signals (env_operation env)))
    as [Hp [Hl Ho]].
  destruct (completion_events_counts env) as [Hcp Hcl].
  split; [|split; [|exact Ho]].
  - rewrite RequestChannel_run. unfold trace, negotiation_events; cbn [snd].
    rewrite !count_cons, !count_app, !count_cons, Hp, Hcp.
    destruct (AsyncStatus_eqb _ _); cbn; lia.
  - rewrite RequestChannel_run. unfold trace, negotiation_events; cbn [snd].
    rewrite !count_cons, !count_app, !count_cons, Hl, Hcl.
    destruct (AsyncStatus_eqb _ _); cbn; lia.
Qed.

(** *** What [RequestChannel] returns and calls *)

(** X5: [RequestChannel] returns a channel exactly when the operation has
    completed before the wait returns with status CompletedSuccess and that
    channel; in every other case it returns null. *)
Theorem RequestChannel_Some_iff
    (env : Environment) (s : OS) (c : PushNotificationChannel) :
  value (RequestChannel env s) = Some c <->
  exists res,
    ending (env_operation env) = OpCompleted res /\
    Status res = CompletedSuccess /\
    Channel res = Some c.
Proof.
  rewrite RequestChannel_run, awaited_eq. unfold value; cbn [fst snd].
  split.
  - destruct (ending (env_operation env)) as [res| | |]; cbn;
      try discriminate.
    destruct res as [st ch hr]; cbn.
    destruct st; cbn; try discriminate.
    destruct ch as [c'|]; cbn; try discriminate.
    intros H. injection H as <-. eexists. repeat split.
  - intros [res [-> [Hst Hch]]]. rewrite Hst, Hch. reflexivity.
Qed.

(** X6: every call of [RequestChannel] makes one request, for [remoteId],
    then one wait, of 300 seconds, and ends with exactly one of [Cancel]
    and [GetResults]. *)
Theorem RequestChannel_call_pattern (env : Environment) (s : OS) :
  (exists last,
     trace (RequestChannel env s) =
       CreateChannelAsync_call remoteId :: wait_for_call 300 ::
       negotiation_events env ++ [last] /\
     (last = Cancel_call \/ last = GetResults_call)) /\
  count is_CreateChannelAsync (trace (RequestChannel env s)) = 1%nat /\
  count is_wait_for (trace (RequestChannel env s)) = 1%nat /\
  (count is_Cancel (trace (RequestChannel env s))
   + count is_GetResults (trace (RequestChannel env s)) = 1)%nat /\
  final (RequestChannel env s) = s.
Proof.
  rewrite RequestChannel_run. unfold trace, final; cbn [fst snd].
  split.
  { eexists. split; [reflexivity|].
    destruct (AsyncStatus_eqb _ _); auto. }
  rewrite !count_cons, !count_app.
  rewrite (never_count is_CreateChannelAsync (negotiation_events env)),
    (never_count is_wait_for (negotiation_events env)),
    (never_count is_Cancel (negotiation_events env)),
    (never_count is_GetResults (negotiation_events env)) by never_solve.
  destruct (AsyncStatus_eqb _ _); repeat split; reflexivity.
Qed.

(** *** Every path of [main] *)

Lemma switch_events_end env s :
  exists body,
    switch_events env s = body ++ [cin_ignore] /\
    never is_cin_ignore body.
Proof.
  unfold switch_events.
  destruct (env_kind env =? ExtendedActivationKind.Launch)%Z;
    [|destruct (env_kind env =? ExtendedActivationKind.Push)%Z].
  - exists (trace (RequestChannel env s) ++
            match value (RequestChannel env s) with
            | Some c => [PushReceived_subscribe c]
            | None => [error_line]
            end ++
            [cout ((nl ++ "Press 'Enter' at any time to exit App.")
                   ++ nl)%string]).
    split.
    + rewrite <- !app_assoc. reflexivity.
    + apply never_app;
        [apply never_RequestChannel; try reflexivity; not_output|].
      destruct (value (RequestChannel env s)); never_solve.
  - eexists [_; _; _; _; _]. split; [reflexivity|never_solve].
  - eexists [_; _]. split; [reflexivity|never_solve].
Qed.

(** X7: on every path, whatever the platform answers, [main] reads the
    console exactly once, as the last step before the unregistration, and
    returns 0. *)
Theorem main_single_console_read (env : Environment) (s : OS) :
  (exists pre,
     trace (main env s) = pre ++ cin_ignore :: unregistration_events env /\
     never is_cin_ignore pre) /\
  count is_cin_ignore (trace (main env s)) = 1%nat /\
  value (main env s) = 0.
Proof.
  rewrite main_run. unfold trace, value; cbn [fst snd].
  destruct (switch_events_end env (after_registration env s))
    as [body [-> Hb]].
  split; [|split; [|reflexivity]].
  - exists (registration_events env ++ body). split.
    + rewrite <- !app_assoc. reflexivity.
    + apply never_app; [never_solve|exact Hb].
  - rewrite count_frame by never_solve.
    rewrite count_app, (never_count _ _ Hb). reflexivity.
Qed.

(** X8: the deferral is taken, the activation payload read and the
    deferral released once each in the Push path and never in any other
    path, so on every path the deferrals taken and released balance. *)
Theorem deferral_only_in_Push (env : Environment) (s : OS) :
  count is_GetDeferral (trace (main env s)) =
    (if (env_kind env =? ExtendedActivationKind.Push)%Z then 1 else 0)%nat /\
  count is_Payload (trace (main env s)) =
    (if (env_kind env =? ExtendedActivationKind.Push)%Z then 1 else 0)%nat /\
  count is_Complete (trace (main env s)) =
    (if (env_kind env =? ExtendedActivationKind.Push)%Z then 1 else 0)%nat.
Proof.
  rewrite main_run. unfold trace at 1 2 3; cbn [snd].
  rewrite !count_frame by never_solve.
  unfold switch_events.
  destruct (Z.eqb_spec (env_kind env) ExtendedActivationKind.Launch) as [->|_].
  - cbn [Z.eqb ExtendedActivationKind.Launch ExtendedActivationKind.Push].
    rewrite !count_app.
    rewrite (never_count is_GetDeferral (trace (RequestChannel _ _))),
      (never_count is_Payload (trace (RequestChannel _ _))),
      (never_count is_Complete (trace (RequestChannel _ _)))
      by (apply never_RequestChannel; try reflexivity; not_output).
    destruct (value (RequestChannel _ _)); repeat split; reflexivity.
  - destruct (env_kind env =? ExtendedActivationKind.Push)%Z;
      repeat split; reflexivity.
Qed.

(** X9: outside the Launch path [main] requests no channel, waits on
    none, calls neither [Cancel] nor [GetResults] and subscribes no
    foreground handler. *)
Theorem negotiation_only_in_Launch (env : Environment) (s : OS) :
  env_kind env <> ExtendedActivationKind.Launch ->
  never is_CreateChannelAsync (trace (main env s)) /\
  never is_wait_for (trace (main env s)) /\
  never is_Cancel (trace (main env s)) /\
  never is_GetResults (trace (main env s)) /\
  never is_subscribe (trace (main env s)).
Proof.
  intros Hk. apply Z.eqb_neq in Hk.
  rewrite main_run. unfold trace, switch_events; cbn [snd]. rewrite Hk.
  destruct (env_kind env =? ExtendedActivationKind.Push)%Z;
    repeat split; never_solve.
Qed.

Lemma negotiation_only_in_Launch_witness :
  env_kind push_env <> ExtendedActivationKind.Launch /\
  never is_CreateChannelAsync (trace (main push_env os0)) /\
  never is_wait_for (trace (main push_env os0)) /\
  never is_Cancel (trace (main push_env os0)) /\
  never is_GetResults (trace (main push_env os0)) /\
  never is_subscribe (trace (main push_env os0)).
Proof.
  assert (Hk : env_kind push_env <> ExtendedActivationKind.Launch)
    by (cbv; discriminate).
  split; [exact Hk|].
  apply (negotiation_only_in_Launch push_env os0 Hk).
Defined.

(** *** Running the sample again *)





